(** * CT log viewer: the cross-stream correlation and paging engine

    A shallow embedding of the [CTLogViewer] class of [script.js].  The file
    holds two near-identical copies of the class; every function embedded
    here is textually the same in both copies, except [syncScrollPosition],
    whose first copy has one more guard (it is the one embedded).

    Conventions of the embedding.
    - An [async] method is cut at its [await]: the part that runs when the
      method is called, and the part that runs when the awaited fetch
      settles.  The event loop is single threaded, so each part is atomic.
    - Every [fetch] is recorded in [fetchLog]; requests that have not been
      answered yet sit in [inflight].
    - A panel's DOM element is the list of its child nodes, plus the key the
      class [selected-second] is currently put on.
    - Strings are ASCII strings; pixel quantities are exact rationals. *)

From Stdlib Require Import Ascii QArith Qminmax Qabs.
From stdpp Require Import gmap strings list fin_maps sorting.

(** ** Stream identifiers and log lines *)

(** The keys of [this.logs], in the order of the object literal. *)
Inductive Panel := bt | out | rs.

#[global] Instance Panel_eq_dec : EqDecision Panel.
Proof. solve_decision. Defined.

Definition Panel_to_nat (p : Panel) : nat :=
  match p with bt => 0 | out => 1 | rs => 2 end.

Definition Panel_of_nat (n : nat) : option Panel :=
  match n with 0 => Some bt | 1 => Some out | 2 => Some rs | _ => None end.

#[global] Instance Panel_countable : Countable Panel.
Proof.
  apply (inj_countable Panel_to_nat Panel_of_nat).
  by intros [].
Defined.

(** [Object.keys(this.logs)] *)
Definition panels : list Panel := [bt; out; rs].

Inductive Level := normal | warning | error.

#[global] Instance Level_eq_dec : EqDecision Level.
Proof. solve_decision. Defined.

(** A line as the backend sends it.  [timestamp] and [secondKey] may be
    absent. *)
Record LogLine := mkLine {
  id : nat;
  lineNumber : nat;
  timestamp : option string;
  secondKey : option string;
  level : Level;
  content : string;
  original : string
}.


(** JavaScript truthiness of an optional string: absent and [''] are falsy. *)
Definition truthy (o : option string) : option string :=
  match o with
  | Some s => if decide (s = "") then None else Some s
  | None => None
  end.

(** [line.level === 'error' || line.level === 'warning'] *)
Definition is_problem (l : LogLine) : bool :=
  match level l with
  | error | warning => true
  | normal => false
  end.

(** [line.secondKey === secondKey], for a string [secondKey] *)
Definition has_key (k : string) (l : LogLine) : bool :=
  bool_decide (secondKey l = Some k).

(** ** String helpers used by the renderer *)

Module Str.

Fixpoint includes (c : ascii) (s : string) : bool :=
  match s with
  | EmptyString => false
  | String d r => if Ascii.eqb c d then true else includes c r
  end.

(** [s.replace(c, by)] for a one-character pattern: first occurrence only. *)
Fixpoint replace_char (c : ascii) (by_ : string) (s : string) : string :=
  match s with
  | EmptyString => EmptyString
  | String d r =>
      if Ascii.eqb c d then by_ +:+ r else String d (replace_char c by_ r)
  end.

Fixpoint starts_with (pat s : string) : bool :=
  match pat, s with
  | EmptyString, _ => true
  | String a p, String b r => if Ascii.eqb a b then starts_with p r else false
  | String _ _, EmptyString => false
  end.

Fixpoint drop (n : nat) (s : string) : string :=
  match n, s with
  | 0, _ => s
  | S m, String _ r => drop m r
  | S _, EmptyString => EmptyString
  end.

(** [s.replace(pat, '')]: the first occurrence of [pat] is cut out. *)
Fixpoint remove_first (pat s : string) : string :=
  if starts_with pat s then drop (String.length pat) s
  else match s with
       | EmptyString => EmptyString
       | String d r => String d (remove_first pat r)
       end.

(** White space of [String.prototype.trim] within ASCII. *)
Definition is_space (c : ascii) : bool :=
  let n := nat_of_ascii c in
  (Nat.eqb n 32) || ((Nat.leb 9 n) && (Nat.leb n 13)).

Fixpoint trim_start (s : string) : string :=
  match s with
  | EmptyString => EmptyString
  | String c r => if is_space c then trim_start r else s
  end.

Fixpoint trim_end (s : string) : string :=
  match s with
  | EmptyString => EmptyString
  | String c r =>
      match trim_end r with
      | EmptyString => if is_space c then EmptyString else String c EmptyString
      | r' => String c r'
      end
  end.

Definition trim (s : string) : string := trim_end (trim_start s).

End Str.

(** [formatSecondKey] *)
Definition formatSecondKey (secondKey : string) : string :=
  if Str.includes "T" secondKey then Str.replace_char "T" " " secondKey
  else secondKey.

(** ** The DOM of a panel *)

(** What a fetch can fail with: the promise is rejected (transport error,
    unreadable body), or the status is not OK and the code throws
    [new Error(`HTTP ${response.status}`)]. *)
Inductive Exn :=
  | FetchRejected (message : string)
  | HttpError (status : nat).

(** The [div.log-line] built by [createLogLineElement]. *)
Record LineElement := mkLineElement {
  el_level : Level;
  el_lineId : nat;
  el_secondKey : option string;
  el_text : string;
  el_clickable : bool
}.

Inductive Node :=
  | GroupHeader (key : string) (groupTimestamp : string) (groupCount : nat)
  | GroupEvents (key : string) (events : list LineElement)
  | Line (e : LineElement)
  | LoadFailed (e : Exn)
  | PanelLoading (message : string)
  | PanelError (message : string).

Record Element := mkElement {
  children : list Node;
  selectedKey : option string
}.

(** ** Panel state *)

(** One entry of [this.logs].  [searchResults] is only touched by the global
    search, which is not embedded, and is left out. *)
Record PanelState := mkPanel {
  element : Element;
  visibleLines : list LogLine;
  currentOffset : nat;
  totalLines : nat;
  loading : bool
}.

Record Logs := mkLogs {
  log_bt : PanelState;
  log_out : PanelState;
  log_rs : PanelState
}.

Definition get_log (p : Panel) (ls : Logs) : PanelState :=
  match p with
  | bt => log_bt ls
  | out => log_out ls
  | rs => log_rs ls
  end.

Definition set_log (p : Panel) (x : PanelState) (ls : Logs) : Logs :=
  match p with
  | bt => mkLogs x (log_out ls) (log_rs ls)
  | out => mkLogs (log_bt ls) x (log_rs ls)
  | rs => mkLogs (log_bt ls) (log_out ls) x
  end.

Record ErrorPos := mkErrorPos {
  ep_lineNumber : nat;
  ep_level : Level;
  ep_offset : nat
}.

(** ** Requests and responses *)

Inductive Request :=
  | StatsReq
  | PageReq (panel : Panel) (offset limit : nat) (search : option string)
  | SecondReq (panel : Panel) (second : string) (limit : nat).

(** How a fetch of [/api/logs] settles: with the [lines] of the JSON body,
    or with a failure. *)
Inductive Response :=
  | Fulfilled (lines : list LogLine)
  | Failed (e : Exn).

(** How the fetch of [/api/stats] settles; the body maps a panel to its
    [totalLines]. *)
Inductive StatsResponse :=
  | StatsFulfilled (body : gmap Panel nat)
  | StatsFailed (e : Exn).

Inductive NotificationType := info | success | warn | err.

(** An assignment to [element.scrollTop]. *)
Inductive ScrollWrite :=
  | ToBottom
  | ToPixel (top : Q).

(** ** The viewer *)

(** The fields of the class that the embedded methods read or write,
    followed by the effects on the outside: requests awaiting their answer,
    every request issued so far, the notifications shown, the text of the
    loading overlay when it is displayed, and the [scrollTop] assignments
    made. *)
Record Viewer := mkViewer {
  logs : Logs;
  syncScroll : bool;
  autoScroll : bool;
  showTimestamps : bool;
  groupBySecond : bool;
  isGroupSelectionActive : bool;
  linesPerPage : nat;
  stats : gmap Panel nat;
  secondIndex : gmap string (gmap Panel (list LogLine));
  errorPositions : gmap Panel (list ErrorPos);
  inflight : list Request;
  fetchLog : list Request;
  notifications : list (string * NotificationType);
  loadingOverlay : option string;
  scrollLog : list (Panel * ScrollWrite)
}.

(** Field updates. *)
Definition set_logs (x : Logs) (v : Viewer) : Viewer :=
  {| logs := x; syncScroll := syncScroll v; autoScroll := autoScroll v;
     showTimestamps := showTimestamps v; groupBySecond := groupBySecond v;
     isGroupSelectionActive := isGroupSelectionActive v;
     linesPerPage := linesPerPage v; stats := stats v;
     secondIndex := secondIndex v; errorPositions := errorPositions v;
     inflight := inflight v; fetchLog := fetchLog v;
     notifications := notifications v; loadingOverlay := loadingOverlay v;
     scrollLog := scrollLog v |}.

Definition set_syncScroll (x : bool) (v : Viewer) : Viewer :=
  {| logs := logs v; syncScroll := x; autoScroll := autoScroll v;
     showTimestamps := showTimestamps v; groupBySecond := groupBySecond v;
     isGroupSelectionActive := isGroupSelectionActive v;
     linesPerPage := linesPerPage v; stats := stats v;
     secondIndex := secondIndex v; errorPositions := errorPositions v;
     inflight := inflight v; fetchLog := fetchLog v;
     notifications := notifications v; loadingOverlay := loadingOverlay v;
     scrollLog := scrollLog v |}.

Definition set_autoScroll (x : bool) (v : Viewer) : Viewer :=
  {| logs := logs v; syncScroll := syncScroll v; autoScroll := x;
     showTimestamps := showTimestamps v; groupBySecond := groupBySecond v;
     isGroupSelectionActive := isGroupSelectionActive v;
     linesPerPage := linesPerPage v; stats := stats v;
     secondIndex := secondIndex v; errorPositions := errorPositions v;
     inflight := inflight v; fetchLog := fetchLog v;
     notifications := notifications v; loadingOverlay := loadingOverlay v;
     scrollLog := scrollLog v |}.

Definition set_showTimestamps (x : bool) (v : Viewer) : Viewer :=
  {| logs := logs v; syncScroll := syncScroll v; autoScroll := autoScroll v;
     showTimestamps := x; groupBySecond := groupBySecond v;
     isGroupSelectionActive := isGroupSelectionActive v;
     linesPerPage := linesPerPage v; stats := stats v;
     secondIndex := secondIndex v; errorPositions := errorPositions v;
     inflight := inflight v; fetchLog := fetchLog v;
     notifications := notifications v; loadingOverlay := loadingOverlay v;
     scrollLog := scrollLog v |}.

Definition set_groupBySecond (x : bool) (v : Viewer) : Viewer :=
  {| logs := logs v; syncScroll := syncScroll v; autoScroll := autoScroll v;
     showTimestamps := showTimestamps v; groupBySecond := x;
     isGroupSelectionActive := isGroupSelectionActive v;
     linesPerPage := linesPerPage v; stats := stats v;
     secondIndex := secondIndex v; errorPositions := errorPositions v;
     inflight := inflight v; fetchLog := fetchLog v;
     notifications := notifications v; loadingOverlay := loadingOverlay v;
     scrollLog := scrollLog v |}.

Definition set_stats (x : gmap Panel nat) (v : Viewer) : Viewer :=
  {| logs := logs v; syncScroll := syncScroll v; autoScroll := autoScroll v;
     showTimestamps := showTimestamps v; groupBySecond := groupBySecond v;
     isGroupSelectionActive := isGroupSelectionActive v;
     linesPerPage := linesPerPage v; stats := x;
     secondIndex := secondIndex v; errorPositions := errorPositions v;
     inflight := inflight v; fetchLog := fetchLog v;
     notifications := notifications v; loadingOverlay := loadingOverlay v;
     scrollLog := scrollLog v |}.

Definition set_secondIndex (x : gmap string (gmap Panel (list LogLine))) (v : Viewer) : Viewer :=
  {| logs := logs v; syncScroll := syncScroll v; autoScroll := autoScroll v;
     showTimestamps := showTimestamps v; groupBySecond := groupBySecond v;
     isGroupSelectionActive := isGroupSelectionActive v;
     linesPerPage := linesPerPage v; stats := stats v; secondIndex := x;
     errorPositions := errorPositions v; inflight := inflight v;
     fetchLog := fetchLog v; notifications := notifications v;
     loadingOverlay := loadingOverlay v; scrollLog := scrollLog v |}.

Definition set_errorPositions (x : gmap Panel (list ErrorPos)) (v : Viewer) : Viewer :=
  {| logs := logs v; syncScroll := syncScroll v; autoScroll := autoScroll v;
     showTimestamps := showTimestamps v; groupBySecond := groupBySecond v;
     isGroupSelectionActive := isGroupSelectionActive v;
     linesPerPage := linesPerPage v; stats := stats v;
     secondIndex := secondIndex v; errorPositions := x;
     inflight := inflight v; fetchLog := fetchLog v;
     notifications := notifications v; loadingOverlay := loadingOverlay v;
     scrollLog := scrollLog v |}.

Definition set_inflight (x : list Request) (v : Viewer) : Viewer :=
  {| logs := logs v; syncScroll := syncScroll v; autoScroll := autoScroll v;
     showTimestamps := showTimestamps v; groupBySecond := groupBySecond v;
     isGroupSelectionActive := isGroupSelectionActive v;
     linesPerPage := linesPerPage v; stats := stats v;
     secondIndex := secondIndex v; errorPositions := errorPositions v;
     inflight := x; fetchLog := fetchLog v; notifications := notifications v;
     loadingOverlay := loadingOverlay v; scrollLog := scrollLog v |}.

Definition set_fetchLog (x : list Request) (v : Viewer) : Viewer :=
  {| logs := logs v; syncScroll := syncScroll v; autoScroll := autoScroll v;
     showTimestamps := showTimestamps v; groupBySecond := groupBySecond v;
     isGroupSelectionActive := isGroupSelectionActive v;
     linesPerPage := linesPerPage v; stats := stats v;
     secondIndex := secondIndex v; errorPositions := errorPositions v;
     inflight := inflight v; fetchLog := x; notifications := notifications v;
     loadingOverlay := loadingOverlay v; scrollLog := scrollLog v |}.

Definition set_notifications (x : list (string * NotificationType)) (v : Viewer) : Viewer :=
  {| logs := logs v; syncScroll := syncScroll v; autoScroll := autoScroll v;
     showTimestamps := showTimestamps v; groupBySecond := groupBySecond v;
     isGroupSelectionActive := isGroupSelectionActive v;
     linesPerPage := linesPerPage v; stats := stats v;
     secondIndex := secondIndex v; errorPositions := errorPositions v;
     inflight := inflight v; fetchLog := fetchLog v; notifications := x;
     loadingOverlay := loadingOverlay v; scrollLog := scrollLog v |}.

Definition set_loadingOverlay (x : option string) (v : Viewer) : Viewer :=
  {| logs := logs v; syncScroll := syncScroll v; autoScroll := autoScroll v;
     showTimestamps := showTimestamps v; groupBySecond := groupBySecond v;
     isGroupSelectionActive := isGroupSelectionActive v;
     linesPerPage := linesPerPage v; stats := stats v;
     secondIndex := secondIndex v; errorPositions := errorPositions v;
     inflight := inflight v; fetchLog := fetchLog v;
     notifications := notifications v; loadingOverlay := x;
     scrollLog := scrollLog v |}.

Definition set_scrollLog (x : list (Panel * ScrollWrite)) (v : Viewer) : Viewer :=
  {| logs := logs v; syncScroll := syncScroll v; autoScroll := autoScroll v;
     showTimestamps := showTimestamps v; groupBySecond := groupBySecond v;
     isGroupSelectionActive := isGroupSelectionActive v;
     linesPerPage := linesPerPage v; stats := stats v;
     secondIndex := secondIndex v; errorPositions := errorPositions v;
     inflight := inflight v; fetchLog := fetchLog v;
     notifications := notifications v; loadingOverlay := loadingOverlay v;
     scrollLog := x |}.

Definition log (p : Panel) (v : Viewer) : PanelState := get_log p (logs v).

Arguments log : simpl never.

Definition set_panel (p : Panel) (x : PanelState) (v : Viewer) : Viewer :=
  set_logs (set_log p x (logs v)) v.

Definition set_element (e : Element) (s : PanelState) : PanelState :=
  mkPanel e (visibleLines s) (currentOffset s) (totalLines s) (loading s).

Definition set_visibleLines (ls : list LogLine) (s : PanelState) : PanelState :=
  mkPanel (element s) ls (currentOffset s) (totalLines s) (loading s).

Definition set_currentOffset (n : nat) (s : PanelState) : PanelState :=
  mkPanel (element s) (visibleLines s) n (totalLines s) (loading s).

Definition set_totalLines (n : nat) (s : PanelState) : PanelState :=
  mkPanel (element s) (visibleLines s) (currentOffset s) n (loading s).

Definition set_loading (b : bool) (s : PanelState) : PanelState :=
  mkPanel (element s) (visibleLines s) (currentOffset s) (totalLines s) b.

(** The state the constructor leaves, before it calls [initializeViewer]. *)
Definition new_panel : PanelState :=
  mkPanel (mkElement [] None) [] 0 0 false.

Definition new_viewer : Viewer :=
  {| logs := mkLogs new_panel new_panel new_panel;
     syncScroll := false; autoScroll := true; showTimestamps := true;
     groupBySecond := true; isGroupSelectionActive := false;
     linesPerPage := 100;
     stats := ∅; secondIndex := ∅; errorPositions := ∅;
     inflight := []; fetchLog := []; notifications := [];
     loadingOverlay := None; scrollLog := [] |}.

(** ** Second index *)

Module SecondIndex.

(** The body of the [forEach] shared by [buildSecondIndex] and
    [updateSecondIndex]: a line with a truthy [secondKey] is pushed onto
    [index[secondKey][panel]], both levels being created on demand. *)
Definition push (panel : Panel)
    (index : gmap string (gmap Panel (list LogLine))) (line : LogLine)
    : gmap string (gmap Panel (list LogLine)) :=
  match truthy (secondKey line) with
  | Some k =>
      let byPanel := default ∅ (index !! k) in
      let entry := default [] (byPanel !! panel) in
      <[k := <[panel := entry ++ [line]]> byPanel]> index
  | None => index
  end.

Definition push_all (panel : Panel) (lines : list LogLine)
    (index : gmap string (gmap Panel (list LogLine)))
    : gmap string (gmap Panel (list LogLine)) :=
  foldl (push panel) index lines.


End SecondIndex.

(** [buildSecondIndex] *)
Definition buildSecondIndex (v : Viewer) : Viewer :=
  set_secondIndex
    (foldl (fun index panel =>
              SecondIndex.push_all panel (visibleLines (log panel v)) index)
           ∅ panels)
    v.

(** ** Error position tracker *)

(** The [forEach((line, index) => ...)] of the three detection functions:
    [index] counts from the start of the array that is scanned. *)
Fixpoint scan_errors (currentOffset index : nat) (lines : list LogLine)
    : list ErrorPos :=
  match lines with
  | [] => []
  | line :: rest =>
      (if is_problem line
       then [mkErrorPos (lineNumber line) (level line) (currentOffset + index)]
       else [])
      ++ scan_errors currentOffset (S index) rest
  end.

(** [detectErrorsFromLoadedContent]; the scrollbar indicators and the error
    count badge it refreshes are functions of [errorPositions] and are not
    stored. *)
Definition detectErrorsFromLoadedContent (panel : Panel) (v : Viewer) : Viewer :=
  let lg := log panel v in
  match visibleLines lg with
  | [] => v
  | _ =>
      set_errorPositions
        (<[panel := scan_errors (currentOffset lg) 0 (visibleLines lg)]>
           (errorPositions v))
        v
  end.

(** [updateErrorPositionsFromNewContent] *)
Definition updateErrorPositionsFromNewContent (panel : Panel)
    (newLines : list LogLine) (v : Viewer) : Viewer :=
  let old := default [] (errorPositions v !! panel) in
  set_errorPositions
    (<[panel := old ++ scan_errors (currentOffset (log panel v)) 0 newLines]>
       (errorPositions v))
    v.

(** [updateSecondIndex] *)
Definition updateSecondIndex (panel : Panel) (newLines : list LogLine)
    (v : Viewer) : Viewer :=
  updateErrorPositionsFromNewContent panel newLines
    (set_secondIndex (SecondIndex.push_all panel newLines (secondIndex v)) v).

(** [loadAllErrors] *)
Definition loadAllErrors (v : Viewer) : Viewer :=
  foldl (fun v panel => detectErrorsFromLoadedContent panel v) v panels.

(** ** Render engine *)

(** [createLogLineElement] *)
Definition createLogLineElement (showTimestamps : bool) (line : LogLine)
    (secondKey : option string) : LineElement :=
  let displayContent :=
    match negb showTimestamps, truthy (timestamp line) with
    | true, Some ts => Str.trim (Str.remove_first ts (content line))
    | _, _ => content line
    end in
  mkLineElement (level line) (id line) secondKey displayContent
    (bool_decide (is_Some (truthy secondKey))).

(** The [Map] named [grouped]: keys in insertion order. *)
Module Grouped.

Fixpoint push (k : string) (line : LogLine)
    (g : list (string * list LogLine)) : list (string * list LogLine) :=
  match g with
  | [] => [(k, [line])]
  | (k', ls) :: rest =>
      if decide (k = k') then (k', ls ++ [line]) :: rest
      else (k', ls) :: push k line rest
  end.

Definition add (g : list (string * list LogLine)) (line : LogLine)
    : list (string * list LogLine) :=
  match truthy (secondKey line) with
  | Some k => push k line g
  | None => g
  end.

Definition of_lines (lines : list LogLine) : list (string * list LogLine) :=
  foldl add [] lines.

Fixpoint get (k : string) (g : list (string * list LogLine)) : list LogLine :=
  match g with
  | [] => []
  | (k', ls) :: rest => if decide (k = k') then ls else get k rest
  end.

Definition keys (g : list (string * list LogLine)) : list string := g.*1.

End Grouped.

(** [Array.prototype.sort()] without a comparator, on strings: ascending,
    code unit by code unit, which is the order [String.le]. *)
Definition sort_keys (ks : list string) : list string :=
  merge_sort String.le ks.

(** [renderGroupedLog]: the nodes appended to the panel. *)
Definition renderGroupedLog (showTimestamps : bool) (lines : list LogLine)
    : list Node :=
  let grouped := Grouped.of_lines lines in
  let sortedKeys := sort_keys (Grouped.keys grouped) in
  flat_map
    (fun k =>
       let events := Grouped.get k grouped in
       [ GroupHeader k (formatSecondKey k) (length events);
         GroupEvents k
           (map (fun line => createLogLineElement showTimestamps line (Some k))
                events) ])
    sortedKeys.

(** [renderUngroupedLog] *)
Definition renderUngroupedLog (showTimestamps : bool) (lines : list LogLine)
    : list Node :=
  map (fun line => Line (createLogLineElement showTimestamps line (secondKey line)))
      lines.

(** [renderLog] *)
Definition renderLog (panel : Panel) (v : Viewer) : Viewer :=
  let lg := log panel v in
  let nodes :=
    if groupBySecond v then renderGroupedLog (showTimestamps v) (visibleLines lg)
    else renderUngroupedLog (showTimestamps v) (visibleLines lg) in
  let v1 := set_panel panel (set_element (mkElement nodes None) lg) v in
  if autoScroll v && (length (visibleLines lg) <=? linesPerPage v)%nat
  then set_scrollLog (scrollLog v1 ++ [(panel, ToBottom)]) v1
  else v1.

(** [redrawAllLogs] *)
Definition redrawAllLogs (v : Viewer) : Viewer :=
  foldl (fun v panel =>
           match visibleLines (log panel v) with
           | [] => v
           | _ => renderLog panel v
           end)
        v panels.

(** ** Control flow of [try]/[catch]/[finally] *)

(** How a [try] block ends: normally, or by throwing [e] in the state
    reached so far. *)
Inductive Completion :=
  | Normal (v : Viewer)
  | Throw (e : Exn) (v : Viewer).

Definition try_catch (body : Completion) (handler : Exn -> Viewer -> Viewer)
    : Viewer :=
  match body with
  | Normal v => v
  | Throw e v => handler e v
  end.

Definition try_catch_finally (body : Completion)
    (handler : Exn -> Viewer -> Viewer) (finally : Viewer -> Viewer) : Viewer :=
  finally (try_catch body handler).

(** ** Lazy loader *)

(** A call of [fetch]: the request is counted and awaits its answer. *)
Definition fetch (r : Request) (v : Viewer) : Viewer :=
  set_fetchLog (fetchLog v ++ [r]) (set_inflight (inflight v ++ [r]) v).

(** [loadLogData], up to its [await fetch(...)]. *)
Definition loadLogData (panel : Panel) (offset : nat) (search : string)
    (v : Viewer) : Viewer :=
  let lg := log panel v in
  if loading lg then v
  else
    fetch (PageReq panel offset (linesPerPage v) (truthy (Some search)))
          (set_panel panel (set_loading true lg) v).

(** The [try] block of [loadLogData] once the fetch has settled. *)
Definition loadLogData_body (panel : Panel) (offset : nat) (r : Response)
    (v : Viewer) : Completion :=
  match r with
  | Failed e => Throw e v
  | Fulfilled lines =>
      let lg := log panel v in
      let lg1 :=
        if (offset =? 0)%nat
        then set_currentOffset 0 (set_visibleLines lines lg)
        else set_visibleLines (visibleLines lg ++ lines) lg in
      let lg2 := set_totalLines (default 0 (stats v !! panel)) lg1 in
      let v1 := renderLog panel (set_panel panel lg2 v) in
      Normal (updateSecondIndex panel lines v1)
  end.

(** The [catch] block of [loadLogData]: the panel shows the failure. *)
Definition loadLogData_catch (panel : Panel) (e : Exn) (v : Viewer) : Viewer :=
  set_panel panel (set_element (mkElement [LoadFailed e] None) (log panel v)) v.

(** [loadLogData], from the settling of its fetch to its end. *)
Definition loadLogData_settle (panel : Panel) (offset : nat) (r : Response)
    (v : Viewer) : Viewer :=
  try_catch_finally
    (loadLogData_body panel offset r v)
    (loadLogData_catch panel)
    (fun v => set_panel panel (set_loading false (log panel v)) v).

(** [showPanelLoading], [hidePanelLoading], [showPanelError] and
    [highlightSecondInPanel].  [hidePanelLoading] removes the first node with
    the panel's loading id; the timer that takes the error banner away after
    three seconds is not embedded. *)
Definition append_child (panel : Panel) (n : Node) (v : Viewer) : Viewer :=
  let lg := log panel v in
  set_panel panel
    (set_element (mkElement (children (element lg) ++ [n])
                            (selectedKey (element lg))) lg) v.

Definition showPanelLoading (panel : Panel) (message : string) (v : Viewer)
    : Viewer :=
  append_child panel (PanelLoading message) v.

Fixpoint remove_first_loading (ns : list Node) : list Node :=
  match ns with
  | [] => []
  | PanelLoading _ :: rest => rest
  | n :: rest => n :: remove_first_loading rest
  end.

Definition hidePanelLoading (panel : Panel) (v : Viewer) : Viewer :=
  let lg := log panel v in
  set_panel panel
    (set_element (mkElement (remove_first_loading (children (element lg)))
                            (selectedKey (element lg))) lg) v.

Definition showPanelError (panel : Panel) (message : string) (v : Viewer)
    : Viewer :=
  append_child panel (PanelError message) v.

Definition highlightSecondInPanel (panel : Panel) (secondKey : string)
    (v : Viewer) : Viewer :=
  let lg := log panel v in
  set_panel panel
    (set_element (mkElement (children (element lg)) (Some secondKey)) lg) v.

(** What a call hands back to its caller. *)
Inductive JsValue :=
  | Undefined
  | Bool (b : bool).

(** [loadSecondFromPanel], up to its [await fetch(...)]: either it returns
    at once, or it has issued its request and waits. *)
Definition loadSecondFromPanel (panel : Panel) (secondKey : string)
    (v : Viewer) : Viewer * option JsValue :=
  let lg := log panel v in
  let isAlreadyLoaded := existsb (has_key secondKey) (visibleLines lg) in
  if isAlreadyLoaded then (v, Some Undefined)
  else
    (fetch (SecondReq panel secondKey 50)
       (showPanelLoading panel
          ("Loading " +:+ formatSecondKey secondKey +:+ "...") v),
     None).

(** [loadSecondFromPanel], from the settling of its fetch to its end, with
    the value it returns. *)
Definition loadSecondFromPanel_settle (panel : Panel) (secondKey : string)
    (r : Response) (v : Viewer) : Viewer * bool :=
  let '(v', ret) :=
    match r with
    | Failed e =>
        (showPanelError panel ("Failed to load " +:+ formatSecondKey secondKey) v,
         false)
    | Fulfilled [] => (v, false)
    | Fulfilled lines =>
        let lg := log panel v in
        let v1 :=
          set_panel panel (set_visibleLines (visibleLines lg ++ lines) lg) v in
        let v2 := updateSecondIndex panel lines v1 in
        let v3 := renderLog panel v2 in
        (highlightSecondInPanel panel secondKey v3, true)
    end in
  (hidePanelLoading panel v', ret).

(** The geometry of a scrollable element. *)
Record Box := mkBox {
  scrollTop : Q;
  scrollHeight : Q;
  clientHeight : Q
}.

(** [scrollTop + clientHeight > scrollHeight - 100] *)
Definition near_bottom (box : Box) : bool :=
  if Qlt_le_dec (scrollHeight box - 100) (scrollTop box + clientHeight box)
  then true else false.

(** [handleScroll], the part that pages: near the bottom, the next page is
    asked for when some is left and none is being loaded. *)
Definition handleScroll (panel : Panel) (box : Box) (v : Viewer) : Viewer :=
  let lg := log panel v in
  if near_bottom box
  then
    let newOffset := currentOffset lg + length (visibleLines lg) in
    if (newOffset <? totalLines lg)%nat && negb (loading lg)
    then loadLogData panel newOffset "" v
    else v
  else v.

(** [performPanelSearch] and [clearPanelSearch] *)
Definition performPanelSearch (panel : Panel) (searchTerm : string)
    (v : Viewer) : Viewer :=
  match Str.trim searchTerm with
  | EmptyString => v
  | _ => loadLogData panel 0 searchTerm v
  end.

Definition clearPanelSearch (panel : Panel) (v : Viewer) : Viewer :=
  loadLogData panel 0 "" v.

(** ** Initialization *)

Definition showLoadingOverlay (message : string) (v : Viewer) : Viewer :=
  set_loadingOverlay (Some message) v.

Definition hideLoadingOverlay (v : Viewer) : Viewer :=
  set_loadingOverlay None v.

Definition showNotification (message : string) (type : NotificationType)
    (v : Viewer) : Viewer :=
  set_notifications (notifications v ++ [(message, type)]) v.

Definition showError (message : string) (v : Viewer) : Viewer :=
  showNotification message err v.

(** [loadStats], up to its [await fetch('/api/stats')]. *)
Definition loadStats (v : Viewer) : Viewer := fetch StatsReq v.

(** [loadStats], from the settling of its fetch: its own [catch] only logs
    to the console. *)
Definition loadStats_settle (r : StatsResponse) (v : Viewer) : Viewer :=
  try_catch
    (match r with
     | StatsFailed e => Throw e v
     | StatsFulfilled body => Normal (set_stats body v)
     end)
    (fun _ v => v).

Definition reload_message : string :=
  "Failed to initialize viewer. Please refresh the page.".

(** The [catch] block of [initializeViewer]. *)
Definition initializeViewer_catch (e : Exn) (v : Viewer) : Viewer :=
  showError reload_message (hideLoadingOverlay v).

(** [initializeViewer] in its three stretches: up to [await loadStats()];
    from there to [await Promise.all([...])]; and the rest.  The file upload
    dialog set up by [initFileUpload] and the status line are outside the
    embedded engine.  With answers of the expected shape no step of the
    [try] block throws: [loadStats], [loadLogData] and [loadAllErrors] wrap
    their whole body in a [try] of their own, and the other steps only read
    the buffers; so each stretch completes normally and the promises that
    are awaited are never rejected. *)
Definition initializeViewer (v : Viewer) : Viewer :=
  try_catch
    (Normal (loadStats (showLoadingOverlay "Initializing viewer..." v)))
    initializeViewer_catch.

Definition initializeViewer_afterStats (r : StatsResponse) (v : Viewer)
    : Viewer :=
  try_catch
    (Normal (loadLogData rs 0 ""
               (loadLogData out 0 ""
                  (loadLogData bt 0 "" (loadStats_settle r v)))))
    initializeViewer_catch.

Definition initializeViewer_afterLoads (v : Viewer) : Viewer :=
  try_catch
    (Normal (hideLoadingOverlay (loadAllErrors (buildSecondIndex v))))
    initializeViewer_catch.

(** ** The event loop *)

(** What the event loop delivers to the viewer: the call of
    [initializeViewer] by the constructor, the answer to the stats request
    (which resumes [initializeViewer]), the completion of the three initial
    loads (which resumes it again), a call of [loadLogData] by any caller, a
    scroll event on a panel, the debounced panel search and its clear
    button, a call of [loadSecondFromPanel], the answer to a request for
    [/api/logs], and the toolbar switches. *)
Inductive Event :=
  | EvInitialize
  | EvStatsSettled (i : nat) (r : StatsResponse)
  | EvInitialLoadsSettled
  | EvLoadLogData (panel : Panel) (offset : nat) (search : string)
  | EvScroll (panel : Panel) (box : Box)
  | EvPanelSearch (panel : Panel) (searchTerm : string)
  | EvClearPanelSearch (panel : Panel)
  | EvLoadSecond (panel : Panel) (secondKey : string)
  | EvLogsSettled (i : nat) (r : Response)
  | EvGroupToggle
  | EvShowTimestamps (checked : bool)
  | EvAutoScroll (checked : bool).

(** The [i]-th request awaiting its answer is answered: the method that
    issued it goes on.  An answer nobody waits for changes nothing. *)
Definition logs_settled (i : nat) (r : Response) (v : Viewer) : Viewer :=
  match inflight v !! i with
  | Some (PageReq panel offset _ _) =>
      loadLogData_settle panel offset r (set_inflight (delete i (inflight v)) v)
  | Some (SecondReq panel secondKey _) =>
      (loadSecondFromPanel_settle panel secondKey r
         (set_inflight (delete i (inflight v)) v)).1
  | _ => v
  end.

Definition stats_settled (i : nat) (r : StatsResponse) (v : Viewer) : Viewer :=
  match inflight v !! i with
  | Some StatsReq =>
      initializeViewer_afterStats r (set_inflight (delete i (inflight v)) v)
  | _ => v
  end.

Definition step (v : Viewer) (e : Event) : Viewer :=
  match e with
  | EvInitialize => initializeViewer v
  | EvStatsSettled i r => stats_settled i r v
  | EvInitialLoadsSettled => initializeViewer_afterLoads v
  | EvLoadLogData panel offset search => loadLogData panel offset search v
  | EvScroll panel box => handleScroll panel box v
  | EvPanelSearch panel searchTerm => performPanelSearch panel searchTerm v
  | EvClearPanelSearch panel => clearPanelSearch panel v
  | EvLoadSecond panel secondKey => (loadSecondFromPanel panel secondKey v).1
  | EvLogsSettled i r => logs_settled i r v
  | EvGroupToggle =>
      redrawAllLogs (set_groupBySecond (negb (groupBySecond v)) v)
  | EvShowTimestamps checked => redrawAllLogs (set_showTimestamps checked v)
  | EvAutoScroll checked => set_autoScroll checked v
  end.

Definition run (v : Viewer) (es : list Event) : Viewer := foldl step v es.

(** The states the viewer can be in: those a run of events reaches from the
    state the constructor builds. *)
Definition reachable (v : Viewer) : Prop := exists es, v = run new_viewer es.

(** Page fetches of [panel] that await their answer. *)
Definition is_page_of (panel : Panel) (r : Request) : bool :=
  match r with
  | PageReq p _ _ _ => bool_decide (p = panel)
  | _ => false
  end.

Definition pages_inflight (panel : Panel) (v : Viewer) : nat :=
  length (filter (fun r => is_page_of panel r = true) (inflight v)).

Definition pages_fetched (panel : Panel) (v : Viewer) : nat :=
  length (filter (fun r => is_page_of panel r = true) (fetchLog v)).

(** The panels on which an event calls [loadLogData], in call order. *)
Definition loadLogData_calls (v : Viewer) (e : Event) : list Panel :=
  match e with
  | EvLoadLogData p _ _ => [p]
  | EvClearPanelSearch p => [p]
  | EvPanelSearch p searchTerm =>
      match Str.trim searchTerm with
      | EmptyString => []
      | _ => [p]
      end
  | EvScroll p box =>
      let lg := log p v in
      if near_bottom box
         && (currentOffset lg + length (visibleLines lg) <? totalLines lg)%nat
         && negb (loading lg)
      then [p] else []
  | EvStatsSettled i _ =>
      match inflight v !! i with
      | Some StatsReq => panels
      | _ => []
      end
  | _ => []
  end.

(** The calls on [panel] that are allowed: those that find it not loading. *)
Definition allowed_calls (panel : Panel) (v : Viewer) (e : Event) : nat :=
  length (List.filter
            (fun p => bool_decide (p = panel) && negb (loading (log p v)))
            (loadLogData_calls v e)).

Fixpoint allowed_in_run (panel : Panel) (v : Viewer) (es : list Event) : nat :=
  match es with
  | [] => 0
  | e :: rest => allowed_calls panel v e + allowed_in_run panel (step v e) rest
  end.

(** ** Scroll synchronization *)





(** * Vocabulary of the properties *)

(** ** What the data of a state is *)

(** What paging is about: a panel's buffer, offsets and flag. *)
Definition paging (s : PanelState) : list LogLine * nat * nat * bool :=
  (visibleLines s, currentOffset s, totalLines s, loading s).

(** Two states that differ at most in what is drawn. *)
Definition same_data (v v' : Viewer) : Prop :=
  (forall q, paging (log q v') = paging (log q v))
  /\ stats v' = stats v
  /\ secondIndex v' = secondIndex v
  /\ errorPositions v' = errorPositions v
  /\ inflight v' = inflight v
  /\ fetchLog v' = fetchLog v
  /\ notifications v' = notifications v.

(** The part of a panel that the moves below speak of. *)
Definition state3 (s : PanelState) : list LogLine * nat * bool :=
  (visibleLines s, currentOffset s, loading s).

(** The buffer and offset a fulfilled page load leaves. *)
Definition loaded_lines (offset : nat) (old lines : list LogLine)
    : list LogLine :=
  if (offset =? 0)%nat then lines else old ++ lines.

Definition loaded_offset (offset old : nat) : nat :=
  if (offset =? 0)%nat then 0 else old.

(** What a settled page load leaves of a panel and of the index. *)
Definition settled_state (offset : nat) (r : Response) (s : PanelState)
    : list LogLine * nat * bool :=
  match r with
  | Fulfilled lines =>
      (loaded_lines offset (visibleLines s) lines,
       loaded_offset offset (currentOffset s), false)
  | Failed _ => (visibleLines s, currentOffset s, false)
  end.

Definition settled_index (panel : Panel) (r : Response)
    (index : gmap string (gmap Panel (list LogLine)))
    : gmap string (gmap Panel (list LogLine)) :=
  match r with
  | Fulfilled lines => SecondIndex.push_all panel lines index
  | Failed _ => index
  end.


(** ** Moves of the data *)

(** Every event changes the buffers, the index and the pending requests by
    a few moves of the kinds below; what is drawn plays no part in them. *)
Inductive move (v v' : Viewer) : Prop :=
  | move_same :
      (forall q, state3 (log q v') = state3 (log q v)) ->
      secondIndex v' = secondIndex v ->
      inflight v' = inflight v ->
      fetchLog v' = fetchLog v ->
      move v v'
  | move_fetch r :
      (forall p, is_page_of p r = false) ->
      (forall q, state3 (log q v') = state3 (log q v)) ->
      secondIndex v' = secondIndex v ->
      inflight v' = inflight v ++ [r] ->
      fetchLog v' = fetchLog v ++ [r] ->
      move v v'
  | move_page_call p offset limit search :
      loading (log p v) = false ->
      state3 (log p v') =
        (visibleLines (log p v), currentOffset (log p v), true) ->
      (forall q, q <> p -> state3 (log q v') = state3 (log q v)) ->
      secondIndex v' = secondIndex v ->
      inflight v' = inflight v ++ [PageReq p offset limit search] ->
      fetchLog v' = fetchLog v ++ [PageReq p offset limit search] ->
      move v v'
  | move_drop i r :
      inflight v !! i = Some r ->
      (forall p, is_page_of p r = false) ->
      (forall q, state3 (log q v') = state3 (log q v)) ->
      secondIndex v' = secondIndex v ->
      inflight v' = delete i (inflight v) ->
      fetchLog v' = fetchLog v ->
      move v v'
  | move_page_settle i p offset limit search r :
      inflight v !! i = Some (PageReq p offset limit search) ->
      state3 (log p v') = settled_state offset r (log p v) ->
      (forall q, q <> p -> state3 (log q v') = state3 (log q v)) ->
      secondIndex v' = settled_index p r (secondIndex v) ->
      inflight v' = delete i (inflight v) ->
      fetchLog v' = fetchLog v ->
      move v v'
  | move_append p lines :
      state3 (log p v') =
        (visibleLines (log p v) ++ lines, currentOffset (log p v),
         loading (log p v)) ->
      (forall q, q <> p -> state3 (log q v') = state3 (log q v)) ->
      secondIndex v' = SecondIndex.push_all p lines (secondIndex v) ->
      inflight v' = inflight v ->
      fetchLog v' = fetchLog v ->
      move v v'
  | move_rebuild :
      (forall q, state3 (log q v') = state3 (log q v)) ->
      secondIndex v' = secondIndex (buildSecondIndex v) ->
      inflight v' = inflight v ->
      fetchLog v' = fetchLog v ->
      move v v'.

(** ** Invariants *)

Definition offsets_zero (v : Viewer) : Prop :=
  forall q, currentOffset (log q v) = 0.

(** A panel has a page request pending exactly when its flag is set, and
    then only one. *)
Definition single_flight (v : Viewer) : Prop :=
  forall q, pages_inflight q v = if loading (log q v) then 1 else 0.


(** ** Scenarios *)

Module Sample.

Definition line (n : nat) (k : option string) (lv : Level) : LogLine :=
  mkLine n n k k lv "event" "event".

(** The viewer once initialization is over, panel [bt] holding [page] and
    the two other panels nothing. *)
Definition started (total : nat) (page : list LogLine) : Viewer :=
  run new_viewer
    [ EvInitialize;
      EvStatsSettled 0 (StatsFulfilled {[bt := total]});
      EvLogsSettled 0 (Fulfilled page);
      EvLogsSettled 0 (Fulfilled []);
      EvLogsSettled 0 (Fulfilled []);
      EvInitialLoadsSettled ].

End Sample.

(** One call of [loadLogData] with the page its fetch is answered by. *)
Record PageCall := mkPageCall {
  pc_offset : nat;
  pc_search : string;
  pc_page : list LogLine
}.

(** The call, then the answer to the request it has just issued. *)
Definition load_page (panel : Panel) (c : PageCall) (v : Viewer) : Viewer :=
  logs_settled (length (inflight v)) (Fulfilled (pc_page c))
    (loadLogData panel (pc_offset c) (pc_search c) v).

Definition load_pages (panel : Panel) (cs : list PageCall) (v : Viewer)
    : Viewer :=
  foldl (fun v c => load_page panel c v) v cs.

Module C4_input.

(** The first page of [bt]: two lines without trouble. *)
Definition page0 : list LogLine :=
  [Sample.line 1 None normal; Sample.line 2 None normal].

(** The second page: the third line of the stream, an error. *)
Definition page1 : list LogLine := [Sample.line 3 None error].

(** [bt] is scrolled to its end once the viewer has started, and the page
    at offset 2 arrives. *)
Definition after_append : Viewer :=
  run (Sample.started 3 page0)
    [ EvScroll bt (mkBox 0 50 50); EvLogsSettled 0 (Fulfilled page1) ].

(** A page holding an error is fetched again after the panel search is
    cleared. *)
Definition after_reload : Viewer :=
  run (Sample.started 1 [Sample.line 1 None error])
    [ EvClearPanelSearch bt;
      EvLogsSettled 0 (Fulfilled [Sample.line 1 None error]) ].

End C4_input.





(** ** Statements in the words of the specification *)

(** As the specification words it: after the calls, the buffer is the
    concatenation of the pages and [currentOffset] is the first offset. *)
Definition pages_are_the_buffer (v : Viewer) (panel : Panel)
    (first : PageCall) (rest : list PageCall) : Prop :=
  visibleLines (log panel (load_pages panel (first :: rest) v)) =
    concat (map pc_page (first :: rest))
  /\ currentOffset (log panel (load_pages panel (first :: rest) v)) =
       pc_offset first.




(** * Properties *)

(** ** Reading a state after an update *)

Lemma get_set_log p q x ls :
  get_log q (set_log p x ls) = if decide (q = p) then x else get_log q ls.
Proof. by destruct p, q, ls. Qed.

Lemma log_set_panel p q x v :
  log q (set_panel p x v) = if decide (q = p) then x else log q v.
Proof. apply get_set_log. Qed.

Lemma log_set_panel_eq p x v : log p (set_panel p x v) = x.
Proof. rewrite log_set_panel. by case_decide. Qed.

Lemma log_set_panel_ne p q x v : q <> p -> log q (set_panel p x v) = log q v.
Proof. intros. rewrite log_set_panel. by case_decide. Qed.

Lemma log_set_syncScroll q x v : log q (set_syncScroll x v) = log q v.
Proof. done. Qed.

Lemma log_set_autoScroll q x v : log q (set_autoScroll x v) = log q v.
Proof. done. Qed.

Lemma log_set_showTimestamps q x v : log q (set_showTimestamps x v) = log q v.
Proof. done. Qed.

Lemma log_set_groupBySecond q x v : log q (set_groupBySecond x v) = log q v.
Proof. done. Qed.

Lemma log_set_stats q x v : log q (set_stats x v) = log q v.
Proof. done. Qed.

Lemma log_set_secondIndex q x v : log q (set_secondIndex x v) = log q v.
Proof. done. Qed.

Lemma log_set_errorPositions q x v : log q (set_errorPositions x v) = log q v.
Proof. done. Qed.

Lemma log_set_inflight q x v : log q (set_inflight x v) = log q v.
Proof. done. Qed.

Lemma log_set_fetchLog q x v : log q (set_fetchLog x v) = log q v.
Proof. done. Qed.

Lemma log_set_notifications q x v : log q (set_notifications x v) = log q v.
Proof. done. Qed.

Lemma log_set_loadingOverlay q x v : log q (set_loadingOverlay x v) = log q v.
Proof. done. Qed.

Lemma log_set_scrollLog q x v : log q (set_scrollLog x v) = log q v.
Proof. done. Qed.

Create Rewrite HintDb viewer.

#[global] Hint Rewrite log_set_syncScroll log_set_autoScroll log_set_showTimestamps log_set_groupBySecond log_set_stats log_set_secondIndex log_set_errorPositions log_set_inflight log_set_fetchLog log_set_notifications log_set_loadingOverlay log_set_scrollLog
  log_set_panel_eq : viewer.

Lemma log_fetch q r v : log q (fetch r v) = log q v.
Proof. done. Qed.

#[global] Hint Rewrite log_fetch : viewer.

Ltac vsimpl := cbn; autorewrite with viewer; cbn.

Lemma set_panel_id p v : set_panel p (log p v) v = v.
Proof. by destruct v as [[] ], p. Qed.

#[global] Instance same_data_refl : Reflexive same_data.
Proof. by intros v. Qed.

#[global] Instance same_data_trans : Transitive same_data.
Proof.
  intros a b c (Hab & ? & ? & ? & ? & ? & ?) (Hbc & ? & ? & ? & ? & ? & ?).
  split; [intros q; by rewrite Hbc, Hab | repeat split; congruence].
Qed.

Lemma same_data_set_element p e v :
  same_data v (set_panel p (set_element e (log p v)) v).
Proof.
  repeat split. intros q. rewrite log_set_panel. by case_decide; subst.
Qed.

Lemma same_data_set_scrollLog x v : same_data v (set_scrollLog x v).
Proof. done. Qed.

Lemma renderLog_same_data p v : same_data v (renderLog p v).
Proof.
  unfold renderLog. case_match.
  - etrans; [apply same_data_set_element | apply same_data_set_scrollLog].
  - apply same_data_set_element.
Qed.

Lemma redrawAllLogs_same_data v : same_data v (redrawAllLogs v).
Proof.
  unfold redrawAllLogs, panels. cbn [foldl].
  repeat (etrans; [| case_match; [reflexivity | apply renderLog_same_data]]).
  reflexivity.
Qed.

Lemma append_child_same_data p n v : same_data v (append_child p n v).
Proof. apply same_data_set_element. Qed.

Lemma hidePanelLoading_same_data p v : same_data v (hidePanelLoading p v).
Proof. apply same_data_set_element. Qed.

Lemma highlightSecondInPanel_same_data p k v :
  same_data v (highlightSecondInPanel p k v).
Proof. apply same_data_set_element. Qed.

Lemma renderLog_log_ne p q v : q <> p -> log q (renderLog p v) = log q v.
Proof.
  intros Hq. unfold renderLog.
  case_match; cbn; rewrite ?log_set_panel_ne by done; try done.
  by apply log_set_panel_ne.
Qed.

Lemma renderLog_paging p q v : paging (log q (renderLog p v)) = paging (log q v).
Proof. apply renderLog_same_data. Qed.

(** *** The effect of a page load *)

Lemma loadLogData_loading p offset search v :
  loading (log p v) = true -> loadLogData p offset search v = v.
Proof. unfold loadLogData. by intros ->. Qed.

Lemma loadLogData_idle p offset search v :
  loading (log p v) = false ->
  loadLogData p offset search v =
    fetch (PageReq p offset (linesPerPage v) (truthy (Some search)))
          (set_panel p (set_loading true (log p v)) v).
Proof. unfold loadLogData. by intros ->. Qed.

Lemma loadLogData_settle_failed p offset e v :
  loadLogData_settle p offset (Failed e) v =
    set_panel p
      (mkPanel (mkElement [LoadFailed e] None) (visibleLines (log p v))
               (currentOffset (log p v)) (totalLines (log p v)) false) v.
Proof.
  unfold loadLogData_settle, try_catch_finally, try_catch, loadLogData_body,
    loadLogData_catch.
  rewrite log_set_panel_eq. by destruct v as [[] ], p.
Qed.

Lemma loadLogData_settle_fulfilled p offset lines v :
  let v' := loadLogData_settle p offset (Fulfilled lines) v in
  paging (log p v') =
    (loaded_lines offset (visibleLines (log p v)) lines,
     loaded_offset offset (currentOffset (log p v)),
     default 0 (stats v !! p), false)
  /\ (forall q, q <> p -> log q v' = log q v)
  /\ secondIndex v' = SecondIndex.push_all p lines (secondIndex v)
  /\ errorPositions v' =
       <[p := default [] (errorPositions v !! p)
              ++ scan_errors (loaded_offset offset (currentOffset (log p v)))
                             0 lines]> (errorPositions v)
  /\ stats v' = stats v
  /\ inflight v' = inflight v
  /\ fetchLog v' = fetchLog v
  /\ notifications v' = notifications v.
Proof.
  intros v'. subst v'.
  unfold loadLogData_settle, try_catch_finally, try_catch, loadLogData_body.
  set (lg2 := set_totalLines _ _).
  set (v0 := set_panel p lg2 v).
  pose proof (renderLog_same_data p v0) as (Hp & Hst & Hsi & Hep & Hin & Hfl & Hno).
  assert (Hlg2 : paging lg2 =
            (loaded_lines offset (visibleLines (log p v)) lines,
             loaded_offset offset (currentOffset (log p v)),
             default 0 (stats v !! p), loading (log p v))).
  { unfold lg2, loaded_lines, loaded_offset. by destruct (offset =? 0)%nat. }
  assert (Hp0 : paging (log p (renderLog p v0)) = paging lg2).
  { rewrite Hp. unfold v0. by rewrite log_set_panel_eq. }
  unfold updateSecondIndex, updateErrorPositionsFromNewContent.
  split_and!.
  - rewrite log_set_panel_eq. unfold log, paging in *. cbn in *. congruence.
  - intros q Hq. rewrite log_set_panel_ne by done.
    transitivity (log q (renderLog p v0)); [done |].
    rewrite renderLog_log_ne by done. unfold v0. by rewrite log_set_panel_ne.
  - cbn. by rewrite Hsi.
  - unfold log, paging in *. cbn in *. rewrite Hep. congruence.
  - cbn. by rewrite Hst.
  - cbn. by rewrite Hin.
  - cbn. by rewrite Hfl.
  - cbn. by rewrite Hno.
Qed.

(** *** The effect of a targeted load *)

Lemma loadSecondFromPanel_loaded p k v :
  existsb (has_key k) (visibleLines (log p v)) = true ->
  loadSecondFromPanel p k v = (v, Some Undefined).
Proof. unfold loadSecondFromPanel. by intros ->. Qed.

Lemma loadSecondFromPanel_missing p k v :
  existsb (has_key k) (visibleLines (log p v)) = false ->
  loadSecondFromPanel p k v =
    (fetch (SecondReq p k 50)
       (showPanelLoading p ("Loading " +:+ formatSecondKey k +:+ "...") v),
     None).
Proof. unfold loadSecondFromPanel. by intros ->. Qed.

Lemma same_data_log_ne_element p q e v :
  q <> p -> log q (set_panel p (set_element e (log p v)) v) = log q v.
Proof. apply log_set_panel_ne. Qed.

Lemma loadSecondFromPanel_settle_fulfilled p k lines v :
  let r := loadSecondFromPanel_settle p k (Fulfilled lines) v in
  paging (log p r.1) =
    (visibleLines (log p v) ++ lines, currentOffset (log p v),
     totalLines (log p v), loading (log p v))
  /\ (forall q, q <> p -> log q r.1 = log q v)
  /\ secondIndex r.1 = SecondIndex.push_all p lines (secondIndex v)
  /\ default [] (errorPositions r.1 !! p) =
       default [] (errorPositions v !! p)
       ++ scan_errors (currentOffset (log p v)) 0 lines
  /\ (forall q, q <> p -> errorPositions r.1 !! q = errorPositions v !! q)
  /\ stats r.1 = stats v
  /\ inflight r.1 = inflight v
  /\ fetchLog r.1 = fetchLog v
  /\ notifications r.1 = notifications v
  /\ r.2 = negb (bool_decide (lines = [])).
Proof.
  intros r. subst r. unfold loadSecondFromPanel_settle.
  destruct lines as [|l lines].
  - cbn [fst snd].
    pose proof (hidePanelLoading_same_data p v) as (Hp & ? & ? & ? & ? & ? & ?).
    rewrite Hp, !app_nil_r. split_and!; try done.
    all: intros q Hq; first [by apply same_data_log_ne_element | congruence].
  - cbn [fst snd]. set (ls := l :: lines).
    set (v1 := set_panel p _ v).
    set (v2 := updateSecondIndex p ls v1).
    set (v3 := renderLog p v2).
    set (v4 := highlightSecondInPanel p k v3).
    pose proof (hidePanelLoading_same_data p v4) as (Pg5 & ? & ? & Ep5 & ? & ? & ?).
    pose proof (highlightSecondInPanel_same_data p k v3) as (Pg4 & ? & ? & Ep4 & ? & ? & ?).
    pose proof (renderLog_same_data p v2) as (Pg3 & ? & ? & Ep3 & ? & ? & ?).
    assert (Lg1 : log p v1 = set_visibleLines (visibleLines (log p v) ++ ls) (log p v))
      by (unfold v1; by rewrite log_set_panel_eq).
    assert (Ep2 : errorPositions v2 =
              <[p := default [] (errorPositions v !! p)
                     ++ scan_errors (currentOffset (log p v)) 0 ls]>
                (errorPositions v)).
    { unfold v2, updateSecondIndex, updateErrorPositionsFromNewContent.
      vsimpl. by rewrite Lg1. }
    split_and!; try (etrans; [eassumption|]); try (cbn; congruence).
    + rewrite Pg5, Pg4, Pg3. unfold v2, updateSecondIndex,
        updateErrorPositionsFromNewContent. vsimpl. by rewrite Lg1.
    + intros q Hq. unfold hidePanelLoading. rewrite log_set_panel_ne by done.
      unfold v4, highlightSecondInPanel. rewrite log_set_panel_ne by done.
      unfold v3. rewrite renderLog_log_ne by done.
      transitivity (log q v1); [done|]. unfold v1. by rewrite log_set_panel_ne.
    + rewrite Ep5. unfold v4. rewrite Ep4. unfold v3. rewrite Ep3, Ep2.
      by rewrite lookup_insert_eq.
    + intros q Hq. rewrite Ep5. unfold v4. rewrite Ep4. unfold v3.
      rewrite Ep3, Ep2. by rewrite lookup_insert_ne.
Qed.

Lemma loadSecondFromPanel_settle_failed p k e v :
  let r := loadSecondFromPanel_settle p k (Failed e) v in
  same_data v r.1 /\ (forall q, q <> p -> log q r.1 = log q v) /\ r.2 = false.
Proof.
  intros r. subst r. unfold loadSecondFromPanel_settle. cbn [fst snd].
  split_and!; [| |done].
  - etrans; [apply append_child_same_data | apply hidePanelLoading_same_data].
  - intros q Hq. unfold hidePanelLoading, showPanelError, append_child.
    by rewrite !log_set_panel_ne.
Qed.

(** ** Every event is a few moves *)

Lemma paging_state3 s s' : paging s' = paging s -> state3 s' = state3 s.
Proof. unfold paging, state3. congruence. Qed.

Lemma same_data_move v v' : same_data v v' -> move v v'.
Proof.
  intros (Hp & ? & ? & ? & ? & ? & ?). apply move_same; try done.
  intros q. by apply paging_state3.
Qed.

Lemma loadLogData_moves p offset search v :
  rtc move v (loadLogData p offset search v).
Proof.
  destruct (loading (log p v)) eqn:Hl.
  - by rewrite loadLogData_loading.
  - rewrite loadLogData_idle by done. apply rtc_once.
    eapply move_page_call; try done.
    + unfold state3. vsimpl. done.
    + intros q Hq. unfold state3. vsimpl. by rewrite log_set_panel_ne.
Qed.

Lemma handleScroll_moves p box v : rtc move v (handleScroll p box v).
Proof.
  unfold handleScroll. repeat case_match; try done. apply loadLogData_moves.
Qed.

Lemma performPanelSearch_moves p searchTerm v :
  rtc move v (performPanelSearch p searchTerm v).
Proof.
  unfold performPanelSearch. case_match; try done. apply loadLogData_moves.
Qed.

Lemma detectErrorsFromLoadedContent_frame p v :
  logs (detectErrorsFromLoadedContent p v) = logs v
  /\ secondIndex (detectErrorsFromLoadedContent p v) = secondIndex v
  /\ inflight (detectErrorsFromLoadedContent p v) = inflight v
  /\ fetchLog (detectErrorsFromLoadedContent p v) = fetchLog v
  /\ notifications (detectErrorsFromLoadedContent p v) = notifications v
  /\ stats (detectErrorsFromLoadedContent p v) = stats v.
Proof. unfold detectErrorsFromLoadedContent. by case_match. Qed.

Lemma loadAllErrors_frame v :
  logs (loadAllErrors v) = logs v
  /\ secondIndex (loadAllErrors v) = secondIndex v
  /\ inflight (loadAllErrors v) = inflight v
  /\ fetchLog (loadAllErrors v) = fetchLog v
  /\ notifications (loadAllErrors v) = notifications v
  /\ stats (loadAllErrors v) = stats v.
Proof.
  unfold loadAllErrors, panels. cbn [foldl].
  destruct (detectErrorsFromLoadedContent_frame rs
              (detectErrorsFromLoadedContent out
                 (detectErrorsFromLoadedContent bt v)))
    as (-> & -> & -> & -> & -> & ->).
  destruct (detectErrorsFromLoadedContent_frame out
              (detectErrorsFromLoadedContent bt v))
    as (-> & -> & -> & -> & -> & ->).
  by destruct (detectErrorsFromLoadedContent_frame bt v)
    as (-> & -> & -> & -> & -> & ->).
Qed.

Lemma initializeViewer_afterLoads_moves v :
  move v (initializeViewer_afterLoads v).
Proof.
  unfold initializeViewer_afterLoads, try_catch, hideLoadingOverlay.
  destruct (loadAllErrors_frame (buildSecondIndex v)) as (Hl & Hs & Hi & Hf & _).
  apply move_rebuild;
    cbn [secondIndex inflight fetchLog set_loadingOverlay];
    rewrite ?Hi, ?Hf; try done.
  intros q. rewrite log_set_loadingOverlay. unfold log. by rewrite Hl.
Qed.

Lemma logs_settled_moves i r v : rtc move v (logs_settled i r v).
Proof.
  unfold logs_settled.
  destruct (inflight v !! i) as [[|p offset limit search|p k limit]|] eqn:Hi;
    try done.
  - apply rtc_once. set (v0 := set_inflight _ v).
    eapply (move_page_settle _ _ i p offset limit search r); try done.
    + destruct r as [lines|e].
      * destruct (loadLogData_settle_fulfilled p offset lines v0) as (Hp & _).
        change (log p v0) with (log p v) in Hp. unfold paging in Hp.
        unfold state3, settled_state. congruence.
      * rewrite loadLogData_settle_failed. by vsimpl.
    + intros q Hq. destruct r as [lines|e].
      * destruct (loadLogData_settle_fulfilled p offset lines v0) as (_ & Hq' & _).
        by rewrite Hq'.
      * rewrite loadLogData_settle_failed. by rewrite log_set_panel_ne.
    + destruct r as [lines|e].
      * by destruct (loadLogData_settle_fulfilled p offset lines v0) as (_ & _ & -> & _).
      * by rewrite loadLogData_settle_failed.
    + destruct r as [lines|e].
      * by destruct (loadLogData_settle_fulfilled p offset lines v0)
          as (_ & _ & _ & _ & _ & -> & _).
      * by rewrite loadLogData_settle_failed.
    + destruct r as [lines|e].
      * by destruct (loadLogData_settle_fulfilled p offset lines v0)
          as (_ & _ & _ & _ & _ & _ & -> & _).
      * by rewrite loadLogData_settle_failed.
  - set (v0 := set_inflight _ v).
    eapply rtc_l; [by eapply (move_drop v v0 i (SecondReq p k limit))|].
    apply rtc_once. destruct r as [lines|e].
    + destruct (loadSecondFromPanel_settle_fulfilled p k lines v0)
        as (Hp & Hq & Hs & _ & _ & _ & Hi' & Hf & _).
      eapply (move_append _ _ p lines); try done.
      * unfold paging in Hp. unfold state3. congruence.
      * intros q Hne. by rewrite Hq.
    + destruct (loadSecondFromPanel_settle_failed p k e v0) as (Hs & _).
      by apply same_data_move.
Qed.

Lemma stats_settled_moves i r v : rtc move v (stats_settled i r v).
Proof.
  unfold stats_settled.
  destruct (inflight v !! i) as [[| |]|] eqn:Hi; try done.
  set (v0 := set_inflight _ v).
  eapply rtc_l; [by eapply (move_drop v v0 i StatsReq)|].
  unfold initializeViewer_afterStats, try_catch.
  eapply rtc_l; [| do 2 (etrans; [apply loadLogData_moves|]);
                   apply loadLogData_moves].
  apply move_same; by destruct r.
Qed.

Lemma loadSecondFromPanel_moves p k v :
  rtc move v (loadSecondFromPanel p k v).1.
Proof.
  destruct (existsb (has_key k) (visibleLines (log p v))) eqn:Hk.
  - by rewrite loadSecondFromPanel_loaded.
  - rewrite loadSecondFromPanel_missing by done. apply rtc_once. cbn [fst].
    destruct (append_child_same_data p
                (PanelLoading ("Loading " +:+ formatSecondKey k +:+ "...")) v)
      as (Hp & _ & Hs & _ & Hi & Hf & _).
    eapply (move_fetch _ _ (SecondReq p k 50)); try done.
    intros q. vsimpl. by apply paging_state3.
Qed.

Lemma step_moves v e : rtc move v (step v e).
Proof.
  destruct e; cbn [step].
  - apply rtc_once. by eapply (move_fetch _ _ StatsReq).
  - apply stats_settled_moves.
  - apply rtc_once, initializeViewer_afterLoads_moves.
  - apply loadLogData_moves.
  - apply handleScroll_moves.
  - apply performPanelSearch_moves.
  - apply loadLogData_moves.
  - apply loadSecondFromPanel_moves.
  - apply logs_settled_moves.
  - eapply rtc_l; [|apply rtc_once, same_data_move, redrawAllLogs_same_data].
    by apply move_same.
  - eapply rtc_l; [|apply rtc_once, same_data_move, redrawAllLogs_same_data].
    by apply move_same.
  - apply rtc_once. by apply move_same.
Qed.

(** ** Invariants of runs *)

Lemma run_cons v e es : run v (e :: es) = run (step v e) es.
Proof. done. Qed.

Lemma run_app v es es' : run v (es ++ es') = run (run v es) es'.
Proof. apply foldl_app. Qed.

Section invariant.
Variable P : Viewer -> Prop.
Hypothesis P_move : forall v v', P v -> move v v' -> P v'.

Lemma invariant_moves v v' : rtc move v v' -> P v -> P v'.
Proof. induction 1; eauto. Qed.

Lemma invariant_run v es : P v -> P (run v es).
Proof.
  revert v. induction es as [|e es IH]; intros v Hv; [done|].
  rewrite run_cons. apply IH. eapply invariant_moves; [apply step_moves|done].
Qed.
End invariant.

(** *** The offset of a panel *)

Lemma state3_inv s s' :
  state3 s' = state3 s ->
  visibleLines s' = visibleLines s
  /\ currentOffset s' = currentOffset s
  /\ loading s' = loading s.
Proof. unfold state3. intros [= -> -> ->]. done. Qed.

Lemma offsets_zero_move v v' : offsets_zero v -> move v v' -> offsets_zero v'.
Proof.
  intros Hv Hm q. specialize (Hv q).
  assert (Hsame : state3 (log q v') = state3 (log q v) ->
                  currentOffset (log q v') = 0).
  { intros (_ & -> & _)%state3_inv. done. }
  destruct Hm as [Hs|r _ Hs|p ? ? ? _ Hp Hs|i r _ _ Hs|i p off ? ? r _ Hp Hs
                 |p lines Hp Hs|Hs]; auto.
  - destruct (decide (q = p)) as [->|]; auto.
    injection Hp as _ -> _. done.
  - destruct (decide (q = p)) as [->|]; auto.
    specialize (Hv). unfold settled_state, loaded_offset in Hp.
    destruct r; injection Hp as _ -> _; by destruct (off =? 0)%nat.
  - destruct (decide (q = p)) as [->|]; auto.
    injection Hp as _ -> _. done.
Qed.

(** *** One page fetch at a time *)

Lemma filter_delete_length {A} (P : A -> Prop) `{!forall x, Decision (P x)}
    (l : list A) i x :
  l !! i = Some x ->
  length (filter P l) =
    length (filter P (delete i l)) + (if decide (P x) then 1 else 0).
Proof.
  revert i. induction l as [|y l IH]; intros [|i] Hi; try done.
  - injection Hi as ->. rewrite filter_cons.
    change (delete 0 (x :: l)) with l. case_decide; cbn; lia.
  - change (delete (S i) (y :: l)) with (y :: delete i l).
    rewrite !filter_cons. specialize (IH i Hi).
    destruct (decide (P y)); cbn; lia.
Qed.

Lemma single_flight_move v v' : single_flight v -> move v v' -> single_flight v'.
Proof.
  unfold single_flight, pages_inflight.
  intros Hv Hm q. specialize (Hv q).
  assert (Hsame : state3 (log q v') = state3 (log q v) ->
                  loading (log q v') = loading (log q v)).
  { by intros (_ & _ & ->)%state3_inv. }
  destruct Hm as [Hs ? Hi|r Hr Hs ? Hi|p ? ? ? Hl Hp Hs ? Hi|i r Hi Hr Hs ? Hi'
                 |i p off ? ? r Hi Hp Hs ? Hi'|p lines Hp Hs ? Hi|Hs ? Hi].
  - rewrite Hi, Hsame; auto.
  - rewrite Hi, Hsame, filter_app, length_app, Hv; auto.
    rewrite filter_cons, Hr. cbn. case_decide; [done|]. cbn. lia.
  - rewrite Hi, filter_app, length_app, Hv, filter_cons. cbn.
    destruct (decide (q = p)) as [->|Hq].
    + injection Hp as _ _ ->. rewrite Hl, bool_decide_eq_true_2 by done.
      case_decide; done.
    + rewrite Hsame by auto. rewrite bool_decide_eq_false_2 by done.
      case_decide; [done|]. cbn. lia.
  - rewrite Hi', Hsame by auto. rewrite <- Hv.
    rewrite (filter_delete_length _ _ _ _ Hi), Hr.
    case_decide; [done|]. lia.
  - rewrite Hi'.
    rewrite (filter_delete_length _ _ _ _ Hi) in Hv. cbn in Hv.
    destruct (decide (q = p)) as [->|Hq].
    + rewrite bool_decide_eq_true_2 in Hv by done.
      case_decide; [|done].
      assert (loading (log p v') = false) as ->
        by (unfold settled_state in Hp; destruct r; by injection Hp as _ _ ->).
      destruct (loading (log p v)); lia.
    + rewrite Hsame by auto. rewrite bool_decide_eq_false_2 in Hv by done.
      case_decide; [done|]. lia.
  - rewrite Hi. destruct (decide (q = p)) as [->|Hq].
    + by injection Hp as _ _ ->.
    + rewrite Hsame; auto.
  - rewrite Hi, Hsame; auto.
Qed.

(** *** The index and the buffers *)






(** *** The fetch counter *)

Lemma pages_fetched_fetch p r v :
  pages_fetched p (fetch r v) =
    pages_fetched p v + (if is_page_of p r then 1 else 0).
Proof.
  unfold pages_fetched, fetch. cbn.
  rewrite filter_app, length_app, filter_cons, filter_nil.
  destruct (is_page_of p r); by case_decide.
Qed.

Lemma pages_fetched_loadLogData p q offset search v :
  pages_fetched p (loadLogData q offset search v) =
    pages_fetched p v
    + (if bool_decide (q = p) && negb (loading (log q v)) then 1 else 0).
Proof.
  unfold loadLogData. destruct (loading (log q v)).
  - rewrite andb_false_r. lia.
  - rewrite pages_fetched_fetch, andb_true_r. done.
Qed.

Lemma loading_loadLogData_ne p q offset search v :
  p <> q ->
  loading (log p (loadLogData q offset search v)) = loading (log p v).
Proof.
  intros Hne. unfold loadLogData. case_match; [done|].
  vsimpl. by rewrite log_set_panel_ne.
Qed.

Lemma allowed_calls_one p q v e :
  loadLogData_calls v e = [q] ->
  allowed_calls p v e =
    if bool_decide (q = p) && negb (loading (log q v)) then 1 else 0.
Proof.
  unfold allowed_calls. intros ->. cbn [List.filter].
  by destruct (bool_decide (q = p) && negb (loading (log q v))).
Qed.

Lemma allowed_calls_none p v e :
  loadLogData_calls v e = [] -> allowed_calls p v e = 0.
Proof. unfold allowed_calls. by intros ->. Qed.

Lemma allowed_calls_panels p v e :
  loadLogData_calls v e = panels ->
  allowed_calls p v e = if loading (log p v) then 0 else 1.
Proof.
  unfold allowed_calls, panels. intros ->.
  destruct p; cbn; repeat case_bool_decide; try done; cbn; by destruct (loading _).
Qed.

Lemma same_fetchLog_pages p v v' :
  fetchLog v' = fetchLog v -> pages_fetched p v' = pages_fetched p v.
Proof. unfold pages_fetched. by intros ->. Qed.

Lemma pages_fetched_step p v e :
  pages_fetched p (step v e) = pages_fetched p v + allowed_calls p v e.
Proof.
  destruct e as [|i r| |q offset search|q box|q searchTerm|q|q k|i r| | |];
    cbn [step].
  - rewrite allowed_calls_none by done. unfold initializeViewer, try_catch,
      loadStats. rewrite pages_fetched_fetch. cbn. done.
  - unfold stats_settled.
    destruct (inflight v !! i) as [[| |]|] eqn:Hi;
      try (rewrite allowed_calls_none by (cbn; by rewrite Hi); lia).
    rewrite allowed_calls_panels by (cbn; by rewrite Hi).
    unfold initializeViewer_afterStats, try_catch.
    rewrite !pages_fetched_loadLogData.
    rewrite !loading_loadLogData_ne by done.
    set (v0 := set_inflight _ v).
    assert (Hl : forall q, loading (log q (loadStats_settle r v0))
                           = loading (log q v)) by (by destruct r).
    assert (Hf : pages_fetched p (loadStats_settle r v0) = pages_fetched p v)
      by (by destruct r).
    rewrite !Hl, Hf.
    destruct p; repeat case_bool_decide; try done; cbn; destruct (loading _); cbn; lia.
  - rewrite allowed_calls_none by done.
    destruct (loadAllErrors_frame (buildSecondIndex v)) as (_ & _ & _ & Hf & _).
    unfold initializeViewer_afterLoads, try_catch, hideLoadingOverlay,
      pages_fetched. cbn [fetchLog set_loadingOverlay]. rewrite Hf. cbn. lia.
  - rewrite (allowed_calls_one _ q) by done. apply pages_fetched_loadLogData.
  - unfold handleScroll. cbv zeta.
    destruct (near_bottom box) eqn:Hn.
    2: { rewrite allowed_calls_none; [lia|].
         unfold loadLogData_calls. cbv zeta. by rewrite Hn. }
    destruct ((_ <? _)%nat && negb _) eqn:Hc.
    + rewrite (allowed_calls_one _ q); [apply pages_fetched_loadLogData|].
      unfold loadLogData_calls. cbv zeta. rewrite Hn. cbn [andb].
      by rewrite Hc.
    + rewrite allowed_calls_none; [lia|].
      unfold loadLogData_calls. cbv zeta. rewrite Hn. cbn [andb].
      by rewrite Hc.
  - unfold performPanelSearch.
    destruct (Str.trim searchTerm) eqn:Ht.
    + rewrite allowed_calls_none by (cbn; by rewrite Ht). lia.
    + rewrite (allowed_calls_one _ q) by (cbn; by rewrite Ht).
      apply pages_fetched_loadLogData.
  - rewrite (allowed_calls_one _ q) by done. apply pages_fetched_loadLogData.
  - rewrite allowed_calls_none by done. unfold loadSecondFromPanel.
    case_match; cbn [fst]; [lia|]. rewrite pages_fetched_fetch. cbn.
    unfold pages_fetched. cbn. lia.
  - rewrite allowed_calls_none by done. unfold logs_settled.
    destruct (inflight v !! i) as [[|q offset limit search|q k limit]|];
      try lia.
    + set (v0 := set_inflight _ v). rewrite Nat.add_0_r.
      transitivity (pages_fetched p v0); [|done].
      apply same_fetchLog_pages. destruct r as [lines|e].
      * by destruct (loadLogData_settle_fulfilled q offset lines v0)
          as (_ & _ & _ & _ & _ & _ & -> & _).
      * by rewrite loadLogData_settle_failed.
    + set (v0 := set_inflight _ v). rewrite Nat.add_0_r.
      transitivity (pages_fetched p v0); [|done].
      apply same_fetchLog_pages. destruct r as [lines|e].
      * by destruct (loadSecondFromPanel_settle_fulfilled q k lines v0)
          as (_ & _ & _ & _ & _ & _ & _ & -> & _).
      * by destruct (loadSecondFromPanel_settle_failed q k e v0)
          as ((_ & _ & _ & _ & _ & -> & _) & _).
  - rewrite allowed_calls_none, Nat.add_0_r by done.
    apply same_fetchLog_pages.
    by destruct (redrawAllLogs_same_data
                   (set_groupBySecond (negb (groupBySecond v)) v))
      as (_ & _ & _ & _ & _ & -> & _).
  - rewrite allowed_calls_none, Nat.add_0_r by done.
    apply same_fetchLog_pages.
    by destruct (redrawAllLogs_same_data (set_showTimestamps checked v))
      as (_ & _ & _ & _ & _ & -> & _).
  - rewrite allowed_calls_none by done. unfold pages_fetched. cbn. lia.
Qed.

Lemma pages_fetched_run p v es :
  pages_fetched p (run v es) = pages_fetched p v + allowed_in_run p v es.
Proof.
  revert v. induction es as [|e es IH]; intros v; cbn [allowed_in_run].
  - cbn. lia.
  - rewrite run_cons, IH, pages_fetched_step. lia.
Qed.

(** * The specification, sentence by sentence *)

(** ** C10 *)

Lemma currentOffset_loadSecond_settle q p k r v :
  currentOffset (log q (loadSecondFromPanel_settle p k r v).1) =
    currentOffset (log q v).
Proof.
  destruct (decide (q = p)) as [->|Hq].
  - destruct r as [lines|e].
    + pose proof (loadSecondFromPanel_settle_fulfilled p k lines v) as H.
      cbv zeta in H. destruct H as (Hp & _). unfold paging in Hp. congruence.
    + pose proof (loadSecondFromPanel_settle_failed p k e v) as H.
      cbv zeta in H. destruct H as ((Hp & _) & _). specialize (Hp p).
      unfold paging in Hp. congruence.
  - destruct r as [lines|e].
    + pose proof (loadSecondFromPanel_settle_fulfilled p k lines v) as H.
      cbv zeta in H. destruct H as (_ & Hn & _). by rewrite Hn.
    + pose proof (loadSecondFromPanel_settle_failed p k e v) as H.
      cbv zeta in H. destruct H as (_ & Hn & _). by rewrite Hn.
Qed.

Lemma currentOffset_loadLogData_settle q p offset r v :
  currentOffset (log q (loadLogData_settle p offset r v)) =
    match r with
    | Fulfilled _ =>
        if decide (q = p) then loaded_offset offset (currentOffset (log q v))
        else currentOffset (log q v)
    | Failed _ => currentOffset (log q v)
    end.
Proof.
  destruct r as [lines|e].
  - pose proof (loadLogData_settle_fulfilled p offset lines v) as H.
    cbv zeta in H. destruct H as (Hp & Hn & _).
    case_decide as Hq; [subst q; unfold paging in Hp; congruence|by rewrite Hn].
  - rewrite loadLogData_settle_failed, log_set_panel. by case_decide; subst.
Qed.

(** C10.  In every reachable state every panel's [currentOffset] is 0.  It
    starts at 0; a fulfilled page load with offset 0 sets it to 0; a page
    load with another offset, a failed one, and a targeted load of a second
    leave it as it is. *)
Theorem C10_currentOffset_is_zero (es : list Event) (q : Panel) :
  currentOffset (log q (run new_viewer es)) = 0
  /\ currentOffset (log q new_viewer) = 0
  /\ (forall v p offset r,
        currentOffset (log q (loadLogData_settle p offset r v)) =
          match r with
          | Fulfilled _ =>
              if decide (q = p /\ offset = 0) then 0
              else currentOffset (log q v)
          | Failed _ => currentOffset (log q v)
          end)
  /\ (forall v p k r,
        currentOffset (log q (loadSecondFromPanel_settle p k r v).1) =
          currentOffset (log q v)).
Proof.
  split_and!.
  - revert q. apply (invariant_run offsets_zero offsets_zero_move).
    by intros [].
  - by destruct q.
  - intros v p offset r. rewrite currentOffset_loadLogData_settle.
    destruct r; [|done]. unfold loaded_offset.
    destruct (decide (q = p /\ offset = 0)) as [[-> ->]|Hn].
    + by rewrite decide_True.
    + destruct (decide (q = p)) as [->|]; [|done].
      destruct (Nat.eqb_spec offset 0); [exfalso; by apply Hn|done].
  - intros. apply currentOffset_loadSecond_settle.
Qed.

(** ** C2 *)

(** C2.  A call of [loadLogData] on a panel whose [loading] flag is set
    returns the state it was given: no request is issued and nothing
    changes.  In every reachable state a panel has one page fetch in flight
    when its flag is set and none otherwise, and the page fetches issued for
    it so far are as many as the calls that found the flag clear. *)
Theorem C2_one_page_fetch_in_flight (es : list Event) (panel : Panel) :
  (forall v offset search,
     loading (log panel v) = true -> loadLogData panel offset search v = v)
  /\ pages_inflight panel (run new_viewer es) =
       (if loading (log panel (run new_viewer es)) then 1 else 0)
  /\ pages_inflight panel (run new_viewer es) <= 1
  /\ pages_fetched panel (run new_viewer es) =
       allowed_in_run panel new_viewer es.
Proof.
  assert (Hsf : single_flight (run new_viewer es)).
  { apply (invariant_run single_flight single_flight_move). by intros []. }
  split_and!.
  - intros. by apply loadLogData_loading.
  - apply Hsf.
  - rewrite Hsf. case_match; lia.
  - by rewrite pages_fetched_run.
Qed.

Lemma C2_witness :
  let v := run new_viewer [EvLoadLogData bt 0 ""] in
  loading (log bt v) = true
  /\ loadLogData bt 100 "" v = v
  /\ fetchLog (loadLogData bt 100 "" v) = [PageReq bt 0 100 None].
Proof.
  intros v.
  assert (Hl : loading (log bt v) = true) by reflexivity.
  destruct (C2_one_page_fetch_in_flight [EvLoadLogData bt 0 ""] bt)
    as (Hnoop & _).
  split; [exact Hl|]. rewrite (Hnoop v 100 "" Hl). split; reflexivity.
Defined.

(** ** C3 *)



(** ** C6 *)

(** C6.  When the fetch of a page load fails, the panel keeps its buffer,
    its offset and its total; its element shows the failure and its
    [loading] flag is cleared; the other panels, the statistics, the index,
    the error positions and the notifications are as before. *)
Theorem C6_failed_page_load_is_local
    (v : Viewer) (i : nat) (panel : Panel) (offset limit : nat)
    (search : option string) (e : Exn) :
  inflight v !! i = Some (PageReq panel offset limit search) ->
  visibleLines (log panel (logs_settled i (Failed e) v)) =
    visibleLines (log panel v)
  /\ currentOffset (log panel (logs_settled i (Failed e) v)) =
       currentOffset (log panel v)
  /\ totalLines (log panel (logs_settled i (Failed e) v)) =
       totalLines (log panel v)
  /\ loading (log panel (logs_settled i (Failed e) v)) = false
  /\ element (log panel (logs_settled i (Failed e) v)) =
       mkElement [LoadFailed e] None
  /\ (forall q, q <> panel -> log q (logs_settled i (Failed e) v) = log q v)
  /\ stats (logs_settled i (Failed e) v) = stats v
  /\ secondIndex (logs_settled i (Failed e) v) = secondIndex v
  /\ errorPositions (logs_settled i (Failed e) v) = errorPositions v
  /\ notifications (logs_settled i (Failed e) v) = notifications v.
Proof.
  intros Hi. unfold logs_settled. rewrite Hi, loadLogData_settle_failed.
  split_and!; try done; try (by rewrite log_set_panel_eq).
  intros q Hq. by rewrite log_set_panel_ne.
Qed.

Lemma C6_witness :
  let v := run (Sample.started 1 [Sample.line 1 None error])
               [EvClearPanelSearch bt] in
  visibleLines (log bt (logs_settled 0 (Failed (HttpError 500)) v)) =
    [Sample.line 1 None error]
  /\ log out (logs_settled 0 (Failed (HttpError 500)) v) = log out v.
Proof.
  intros v.
  destruct (C6_failed_page_load_is_local v 0 bt 0 100 None (HttpError 500)
              eq_refl) as (Hb & _ & _ & _ & _ & Ho & _).
  split; [rewrite Hb; reflexivity | apply Ho; discriminate].
Defined.

(** ** C5 *)



(** ** C1 *)

Lemma load_page_effect panel c v :
  loading (log panel v) = false ->
  visibleLines (log panel (load_page panel c v)) =
    loaded_lines (pc_offset c) (visibleLines (log panel v)) (pc_page c)
  /\ currentOffset (log panel (load_page panel c v)) =
       loaded_offset (pc_offset c) (currentOffset (log panel v))
  /\ loading (log panel (load_page panel c v)) = false.
Proof.
  intros Hl. unfold load_page, logs_settled.
  rewrite loadLogData_idle by done.
  cbn [inflight fetch set_fetchLog set_inflight].
  rewrite list_lookup_middle by done.
  set (v0 := set_inflight _ _).
  pose proof (loadLogData_settle_fulfilled panel (pc_offset c) (pc_page c) v0)
    as H.
  cbv zeta in H. destruct H as (Hp & _).
  assert (Hv0 : log panel v0 = set_loading true (log panel v)).
  { unfold v0. vsimpl. done. }
  rewrite Hv0 in Hp. unfold paging in Hp. cbn in Hp.
  split_and!; congruence.
Qed.

Lemma load_pages_append panel cs v :
  loading (log panel v) = false ->
  Forall (fun c => pc_offset c <> 0) cs ->
  visibleLines (log panel (load_pages panel cs v)) =
    visibleLines (log panel v) ++ concat (map pc_page cs)
  /\ currentOffset (log panel (load_pages panel cs v)) =
       currentOffset (log panel v)
  /\ loading (log panel (load_pages panel cs v)) = false.
Proof.
  revert v. induction cs as [|c cs IH]; intros v Hl Hcs.
  - cbn. by rewrite app_nil_r.
  - apply Forall_cons in Hcs as [Hc Hcs].
    destruct (load_page_effect panel c v Hl) as (Hb & Ho & Hl').
    destruct (IH (load_page panel c v) Hl' Hcs) as (Hb' & Ho' & Hl'').
    unfold load_pages in *. cbn [foldl map concat].
    rewrite Hb', Ho', Hb, Ho. unfold loaded_lines, loaded_offset.
    destruct (Nat.eqb_spec (pc_offset c) 0); [done|].
    by rewrite <- app_assoc.
Qed.

(** A panel holds the first two lines of its stream and is asked for the
    page at offset 2: the page is appended to what is held, and the offset
    stays 0. *)
Lemma C1_counterexample :
  ~ (forall v panel first rest,
       reachable v ->
       loading (log panel v) = false ->
       StronglySorted lt (map pc_offset (first :: rest)) ->
       Forall (fun c => pc_offset c <> 0) rest ->
       pages_are_the_buffer v panel first rest).
Proof.
  intros H.
  pose (page0 := [Sample.line 1 None normal; Sample.line 2 None normal]).
  pose (es := [ EvInitialize;
                EvStatsSettled 0 (StatsFulfilled {[bt := 3]});
                EvLogsSettled 0 (Fulfilled page0);
                EvLogsSettled 0 (Fulfilled []);
                EvLogsSettled 0 (Fulfilled []);
                EvInitialLoadsSettled ]).
  destruct (H (run new_viewer es) bt
              (mkPageCall 2 "" [Sample.line 3 None normal]) [])
    as (_ & Ho).
  - by exists es.
  - reflexivity.
  - repeat constructor.
  - constructor.
  - vm_compute in Ho. discriminate Ho.
Qed.

(** C1, amended.  For every sequence of page loads on a panel that is not
    loading, all fulfilled, none but the first with offset 0: when the
    first offset is 0 the buffer is the concatenation of the pages in call
    order and [currentOffset] is 0, the first offset; when it is not, the
    pages are appended in call order to the buffer held before and
    [currentOffset] keeps the value it had. *)
Theorem C1_pages_in_call_order
    (v : Viewer) (panel : Panel) (first : PageCall) (rest : list PageCall) :
  loading (log panel v) = false ->
  Forall (fun c => pc_offset c <> 0) rest ->
  visibleLines (log panel (load_pages panel (first :: rest) v)) =
    (if (pc_offset first =? 0)%nat then [] else visibleLines (log panel v))
    ++ concat (map pc_page (first :: rest))
  /\ currentOffset (log panel (load_pages panel (first :: rest) v)) =
       (if (pc_offset first =? 0)%nat then pc_offset first
        else currentOffset (log panel v)).
Proof.
  intros Hl Hrest.
  destruct (load_page_effect panel first v Hl) as (Hb & Ho & Hl').
  destruct (load_pages_append panel rest (load_page panel first v) Hl' Hrest)
    as (Hb' & Ho' & _).
  change (load_pages panel (first :: rest) v)
    with (load_pages panel rest (load_page panel first v)).
  rewrite Hb', Ho', Hb, Ho. unfold loaded_lines, loaded_offset.
  cbn [map concat].
  destruct (Nat.eqb_spec (pc_offset first) 0) as [->|]; [done|].
  by rewrite <- app_assoc.
Qed.

Lemma C1_witness :
  let p0 := [Sample.line 1 None normal] in
  let p1 := [Sample.line 2 None error] in
  visibleLines
    (log rs (load_pages rs [mkPageCall 0 "" p0; mkPageCall 1 "" p1] new_viewer))
  = p0 ++ p1.
Proof.
  intros p0 p1.
  destruct (C1_pages_in_call_order new_viewer rs (mkPageCall 0 "" p0)
              [mkPageCall 1 "" p1]) as (Hb & _).
  - reflexivity.
  - repeat constructor. discriminate.
  - rewrite Hb. reflexivity.
Defined.

(** ** C4 *)

(** C4, on the failing input.  The error is the third line of the stream,
    at position 2 of the buffer, and [currentOffset] is 0; the incremental
    scan records it at offset 0, its position in the page that brought it,
    where the scan of the whole buffer records it at offset 2.  A page that
    is fetched again has its errors entered again. *)
Theorem C4_incremental_scan_offsets :
  visibleLines (log bt C4_input.after_append) =
    C4_input.page0 ++ C4_input.page1
  /\ currentOffset (log bt C4_input.after_append) = 0
  /\ errorPositions C4_input.after_append !! bt = Some [mkErrorPos 3 error 0]
  /\ errorPositions (detectErrorsFromLoadedContent bt C4_input.after_append)
       !! bt = Some [mkErrorPos 3 error 2]
  /\ visibleLines (log bt C4_input.after_reload) = [Sample.line 1 None error]
  /\ errorPositions C4_input.after_reload !! bt =
       Some [mkErrorPos 1 error 0; mkErrorPos 1 error 0].
Proof. split_and!; vm_compute; reflexivity. Qed.

(** ** C7 *)









(** ** C8 *)





(** ** C9 *)





